(** * A shallow embedding of [Computation] (src/src/computation.ts)

    A [Computation<I,O>] wraps [run : (input: I) => Promise<O>].  Calling
    [run] executes the wrapped function synchronously up to the point where
    it hands back a promise; awaiting that promise later yields its
    settlement (a value or a rejection).  We model this two-phase behaviour
    explicitly:

    - [M A] is a state monad over the observable world, a trace of events;
    - a [Promise A] is the action performed when the promise is awaited,
      producing its settlement [result A];
    - [run : I -> M (Promise O)]: the [M] layer is what happens when [run] is
      called, the inner [Promise O] is what happens when it is awaited.

    An [async] function body runs synchronously until its first [await];
    [p.then(k)] returns at once and runs [k] when [p] settles. *)

From Stdlib Require Import List ZArith Lia.
Import ListNotations.

#[local] Set Warnings "-register-all".

(** Rejection reasons.  JavaScript rejects with arbitrary values; error
    codes are enough to tell failures apart. *)
Definition error := nat.

Inductive result (A : Type) : Type :=
| Ok (a : A)
| Err (e : error).
Arguments Ok {A} a.
Arguments Err {A} e.

(** [type Either<A, B> = { kind: 'LEFT'; value: A } | { kind: 'RIGHT'; value: B }] *)
Inductive Either (A B : Type) : Type :=
| LEFT (value : A)
| RIGHT (value : B).
Arguments LEFT {A B} value.
Arguments RIGHT {A B} value.

(** Observable events: the invocation of an instrumented leaf's wrapped
    function ([Start l]) and a caller beginning to wait on that leaf's
    promise ([Await l]). *)
Inductive event : Type :=
| Start (l : nat)
| Await (l : nat).

Definition trace := list event.

Definition event_eqb (a b : event) : bool :=
  match a, b with
  | Start x, Start y => Nat.eqb x y
  | Await x, Await y => Nat.eqb x y
  | _, _ => false
  end.

(** ** The effect monad *)
Definition M (A : Type) : Type := trace -> A * trace.

Definition ret {A} (a : A) : M A := fun s => (a, s).

Definition bind {A B} (m : M A) (k : A -> M B) : M B :=
  fun s => let (a, s1) := m s in k a s1.

Definition tell (e : event) : M unit := fun s => (tt, s ++ [e]).

Notation "x <- m ;; k" := (bind m (fun x => k))
  (at level 61, m at next level, right associativity).

(** A promise, seen from the code awaiting it. *)
Definition Promise (A : Type) : Type := M (result A).

(** [Promise.resolve(v)] / [return v] from an async function / a [.then]
    callback returning [v]: when [v] is a thenable, its settlement is
    adopted.  Each value type says how its values settle. *)
Class Resolvable (A : Type) := resolve_value : A -> result A.

(** Plain data (numbers, tuples, tagged objects without a [then] field)
    are not thenables: they settle to themselves. *)
#[export] Instance resolvable_Z : Resolvable Z := fun v => Ok v.
#[export] Instance resolvable_nat : Resolvable nat := fun v => Ok v.
#[export] Instance resolvable_prod {A B} : Resolvable (A * B) := fun v => Ok v.
#[export] Instance resolvable_Either {A B} : Resolvable (Either A B) := fun v => Ok v.

(** A small universe of JavaScript values containing already-settled
    promises, to observe adoption. *)
Inductive jsval : Type :=
| JNum (z : Z)
| JPromise (settled : result jsval).

Fixpoint resolve_js (v : jsval) : result jsval :=
  match v with
  | JNum z => Ok (JNum z)
  | JPromise (Ok w) => resolve_js w
  | JPromise (Err e) => Err e
  end.

#[export] Instance resolvable_jsval : Resolvable jsval := resolve_js.

(** [await p] inside an async body: continue with the settlement, a
    rejection short-circuits the rest of the body. *)
Definition await_then {A B} (p : Promise A) (k : A -> Promise B) : Promise B :=
  r <- p ;;
  match r with
  | Ok a => k a
  | Err e => ret (Err e)
  end.

Definition resolved {A} (a : A) : Promise A := ret (Ok a).

(** [Promise.all([p1, p2])]: both promises are awaited, a rejection is
    surfaced (left one first). *)
Definition promise_all {A B} (p1 : Promise A) (p2 : Promise B) : Promise (A * B) :=
  r1 <- p1 ;;
  r2 <- p2 ;;
  ret (match r1, r2 with
       | Ok a, Ok b => Ok (a, b)
       | Err e, _ => Err e
       | _, Err e => Err e
       end).

(** ** The class [Computation<I, O>] *)
Record Computation (I O : Type) : Type := mkComputation {
  run : I -> M (Promise O)
}.
Arguments mkComputation {I O} run.
Arguments run {I O} c input.

(** [constructor(fun)] stores [fun] as [run]. *)
Definition make {I O} (fun_ : I -> M (Promise O)) : Computation I O :=
  mkComputation fun_.

(** Calling [run] and awaiting the promise it returns. *)
Definition eval {I O} (c : Computation I O) (input : I) : Promise O :=
  p <- run c input ;; p.

Module Computation.
Section Combinators.
Context {I O : Type} (this : Computation I O).

(** [mapOutput = mapper => new Computation(input =>
       this.run(input).then(result => mapper(result)))].
    The mapper may throw ([Err]); its return value is adopted. *)
Definition mapOutput {N} `{Resolvable N} (mapper : O -> result N)
  : Computation I N :=
  mkComputation (fun input =>
    p <- run this input ;;
    ret (await_then p (fun result =>
           ret (match mapper result with
                | Ok n => resolve_value n
                | Err e => Err e
                end)))).

(** [mapInput = mapper => new Computation(input => this.run(mapper(input)))] *)
Definition mapInput {N} (mapper : N -> I) : Computation N O :=
  mkComputation (fun input => run this (mapper input)).

(** [branch]: an async body that awaits [this.run(input)] before calling
    [computation.run(input)]. *)
Definition branch {O2} (computation : Computation I O2) : Computation I (O * O2) :=
  mkComputation (fun input =>
    p1 <- run this input ;;
    ret (await_then p1 (fun result1 =>
           p2 <- run computation input ;;
           await_then p2 (fun result2 =>
             resolved (result1, result2))))).

(** [pair]: [Promise.all([this.run(input[0]), computation.run(input[1])])] *)
Definition pair {I2 O2} (computation : Computation I2 O2)
  : Computation (I * I2) (O * O2) :=
  mkComputation (fun input =>
    p1 <- run this (fst input) ;;
    p2 <- run computation (snd input) ;;
    ret (promise_all p1 p2)).

(** [andThen = computation => new Computation(input =>
       this.run(input).then(output => computation.run(output)))] *)
Definition andThen {O2} (computation : Computation O O2) : Computation I O2 :=
  mkComputation (fun input =>
    p <- run this input ;;
    ret (await_then p (fun output =>
           q <- run computation output ;; q))).

(** [add]: switch on [input.kind], await the selected side, re-tag. *)
Definition add {I2 O2} (computation : Computation I2 O2)
  : Computation (Either I I2) (Either O O2) :=
  mkComputation (fun input =>
    match input with
    | LEFT value =>
        p <- run this value ;;
        ret (await_then p (fun result1 => resolved (LEFT result1)))
    | RIGHT value =>
        p <- run computation value ;;
        ret (await_then p (fun result2 => resolved (RIGHT result2)))
    end).

(** [fanIn]: switch on [input.kind] and return the selected promise. *)
Definition fanIn {I2} (computation : Computation I2 O)
  : Computation (Either I I2) O :=
  mkComputation (fun input =>
    match input with
    | LEFT value => run this value
    | RIGHT value => run computation value
    end).

End Combinators.

Section Statics.
Context {I O : Type}.

(** [static second]: [computation.run(input[1]).then(output => [input[0], output])] *)
Definition second {D} (computation : Computation I O) : Computation (D * I) (D * O) :=
  mkComputation (fun input =>
    p <- run computation (snd input) ;;
    ret (await_then p (fun output => resolved (fst input, output)))).

(** [static first]: [computation.run(input[0]).then(output => [output, input[1]])] *)
Definition first {D} (computation : Computation I O) : Computation (I * D) (O * D) :=
  mkComputation (fun input =>
    p <- run computation (fst input) ;;
    ret (await_then p (fun output => resolved (output, snd input)))).

(** [static split]: [const result = await computation.run(input);
    return [result, result];] *)
Definition split (computation : Computation I O) : Computation I (O * O) :=
  mkComputation (fun input =>
    p <- run computation input ;;
    ret (await_then p (fun result => resolved (result, result)))).

(** [static left]: the RIGHT case is [await Promise.resolve(input.value)]. *)
Definition left {D} `{Resolvable D} (computation : Computation I O)
  : Computation (Either I D) (Either O D) :=
  mkComputation (fun input =>
    match input with
    | LEFT value =>
        p <- run computation value ;;
        ret (await_then p (fun result1 => resolved (LEFT result1)))
    | RIGHT value =>
        ret (await_then (ret (resolve_value value))
               (fun result2 => resolved (RIGHT result2)))
    end).

(** [static right]: the LEFT case is [await Promise.resolve(input.value)]. *)
Definition right {D} `{Resolvable D} (computation : Computation I O)
  : Computation (Either D I) (Either D O) :=
  mkComputation (fun input =>
    match input with
    | LEFT value =>
        ret (await_then (ret (resolve_value value))
               (fun result1 => resolved (LEFT result1)))
    | RIGHT value =>
        p <- run computation value ;;
        ret (await_then p (fun result2 => resolved (RIGHT result2)))
    end).

End Statics.

(** [static runLeft] / [static runRight] *)
Definition runLeft {I1 I2 O} (computation : Computation (Either I1 I2) O) (value : I1)
  : M (Promise O) := run computation (LEFT value).

Definition runRight {I1 I2 O} (computation : Computation (Either I1 I2) O) (value : I2)
  : M (Promise O) := run computation (RIGHT value).

(** [static merge = merger => new Computation((input: [I1, I2]) =>
       Promise.resolve(merger(input[0], input[1])))] *)
Definition merge {I1 I2 O} `{Resolvable O} (merger : I1 -> I2 -> O)
  : Computation (I1 * I2) O :=
  mkComputation (fun input =>
    ret (ret (resolve_value (merger (fst input) (snd input))))).

End Computation.

(** ** Instrumented leaves

    [probe l g] is [new Computation(x => ...)] whose wrapped function records
    its invocation and whose promise records when it is waited on; it
    settles to [g x]. *)
Definition probe {I O} (l : nat) (g : I -> result O) : Computation I O :=
  make (fun x =>
    _ <- tell (Start l) ;;
    ret (_ <- tell (Await l) ;; ret (g x))).

Definition count_starts (l : nat) (t : trace) : nat :=
  length (filter (event_eqb (Start l)) t).

(** A non-idempotent leaf: a shared counter (the number of earlier
    invocations) incremented on each invocation, returned as the output. *)
Definition ticker {I} (l : nat) : Computation I nat :=
  make (fun _ s =>
    let n := count_starts l s in
    (ret (Ok n), s ++ [Start l])).

(** Position of the first occurrence of an event in a trace. *)
Fixpoint index_of (e : event) (t : trace) : option nat :=
  match t with
  | [] => None
  | x :: t' =>
      if event_eqb e x then Some 0
      else option_map S (index_of e t')
  end.

(** Both leaves [la] and [lb] were invoked before anyone waited on either. *)
Definition concurrent_dispatch (la lb : nat) (t : trace) : bool :=
  match index_of (Start la) t, index_of (Start lb) t,
        index_of (Await la) t, index_of (Await lb) t with
  | Some sa, Some sb, Some wa, Some wb =>
      Nat.ltb sa wa && Nat.ltb sa wb && Nat.ltb sb wa && Nat.ltb sb wb
  | _, _, _, _ => false
  end.

Definition inc_leaf : Computation nat nat := probe 1 (fun x => Ok (x + 1)).
Definition dbl_leaf : Computation nat nat := probe 2 (fun x => Ok (x * 2)).

(** Two computations behave the same: calling [run] has the same effects,
    and the promises handed back settle the same way with the same effects
    whenever they are awaited. *)
Definition same_behaviour {I O} (c d : Computation I O) : Prop :=
  forall (x : I) (s : trace),
    snd (run c x s) = snd (run d x s) /\
    forall s', fst (run c x s) s' = fst (run d x s) s'.

(** [new Computation(x => Promise.resolve(x))] *)
Definition resolve_computation {A} `{Resolvable A} : Computation A A :=
  make (fun x => ret (ret (resolve_value x))).

(** [output => output.value] on an [Either<O, O>] *)
Definition untag {O} (e : Either O O) : result O :=
  match e with
  | LEFT o => Ok o
  | RIGHT o => Ok o
  end.

(** [([a, b]) => [b, a]] *)
Definition swap {A B} (p : A * B) : B * A := (snd p, fst p).

Definition is_left {A B} (e : Either A B) : bool :=
  match e with
  | LEFT _ => true
  | RIGHT _ => false
  end.

(** * Properties *)

Ltac unfold_combinators :=
  unfold eval, Computation.mapOutput, Computation.mapInput,
    Computation.branch, Computation.pair, Computation.andThen,
    Computation.add, Computation.fanIn, Computation.second,
    Computation.first, Computation.split, Computation.left,
    Computation.right, Computation.merge, promise_all, await_then,
    resolved, bind, ret; simpl.

(** Calling [run] on [pair] runs both operands' synchronous phases, in
    order, before any promise is awaited. *)
Lemma pair_run_dispatches_both {I I2 O O2} (a : Computation I O)
      (b : Computation I2 O2) (input : I * I2) (s : trace) :
  run (Computation.pair a b) input s =
  let (p1, s1) := run a (fst input) s in
  let (p2, s2) := run b (snd input) s1 in
  (promise_all p1 p2, s2).
Proof.
  unfold Computation.pair, bind, ret; simpl.
  destruct (run a (fst input) s) as [p1 s1].
  destruct (run b (snd input) s1) as [p2 s2]. reflexivity.
Qed.

(** Calling [run] on [branch] runs only the first operand's synchronous
    phase; the second operand is invoked inside the awaited part. *)
Lemma branch_run_dispatches_first_only {I O O2} (a : Computation I O)
      (b : Computation I O2) (input : I) (s : trace) :
  run (Computation.branch a b) input s =
  let (p1, s1) := run a input s in
  (await_then p1 (fun r1 =>
     p2 <- run b input ;;
     await_then p2 (fun r2 => resolved (r1, r2))), s1).
Proof.
  unfold Computation.branch, bind, ret; simpl.
  destruct (run a input s) as [p1 s1]. reflexivity.
Qed.

(** C1 (defect of [branch]): on two instrumented leaves, [branch] waits on
    the first leaf's promise before invoking the second leaf, so the two
    are not dispatched concurrently; [pair], on the same leaves, invokes
    both before waiting on either. *)
Lemma branch_awaits_first_before_starting_second :
  snd (eval (Computation.branch inc_leaf dbl_leaf) 5 []) =
    [Start 1; Await 1; Start 2; Await 2] /\
  concurrent_dispatch 1 2 (snd (eval (Computation.branch inc_leaf dbl_leaf) 5 [])) = false /\
  concurrent_dispatch 1 2 (snd (eval (Computation.pair inc_leaf dbl_leaf) (5, 5) [])) = true.
Proof. repeat split; reflexivity. Qed.

(** C2: when [a] succeeds on [x] with [oa] and then [b] succeeds on [x]
    with [ob], [branch a b] on [x] settles to exactly the tuple [(oa, ob)],
    first operand's output first. *)
Theorem branch_collects_both_in_order {I O O2} (a : Computation I O)
        (b : Computation I O2) (x : I) (s s1 s2 : trace) (oa : O) (ob : O2) :
  eval a x s = (Ok oa, s1) ->
  eval b x s1 = (Ok ob, s2) ->
  eval (Computation.branch a b) x s = (Ok (oa, ob), s2).
Proof.
  unfold_combinators. intros Ha Hb.
  destruct (run a x s) as [p1 t1]. rewrite Ha.
  destruct (run b x s1) as [p2 t2]. rewrite Hb. reflexivity.
Qed.

(** C3: [andThen a b] runs [a]; on a rejection it settles with that very
    rejection and [b] is never invoked (the trace is [a]'s alone); on
    success it runs [b] on [a]'s output and settles as [b] does. *)
Theorem andThen_sequences {I O O2} (a : Computation I O)
        (b : Computation O O2) (x : I) (s : trace) :
  eval (Computation.andThen a b) x s =
  match eval a x s with
  | (Ok o, s1) => eval b o s1
  | (Err e, s1) => (Err e, s1)
  end.
Proof.
  unfold_combinators.
  destruct (run a x s) as [p s1].
  destruct (p s1) as [[o|e] s2]; reflexivity.
Qed.

(** C4: [mapOutput c mapper] settles like [c] when [c] rejects (the mapper
    is not called); otherwise it calls the mapper on [c]'s output, rejects
    with the mapper's thrown error if it throws, and otherwise settles to
    the mapper's return value (adopted by [.then]). *)
Theorem mapOutput_applies_mapper {I O N} `{Resolvable N}
        (c : Computation I O) (mapper : O -> result N) (x : I) (s : trace) :
  eval (Computation.mapOutput c mapper) x s =
  match eval c x s with
  | (Ok o, s1) =>
      (match mapper o with
       | Ok n => resolve_value n
       | Err e => Err e
       end, s1)
  | (Err e, s1) => (Err e, s1)
  end.
Proof.
  unfold_combinators.
  destruct (run c x s) as [p s1].
  destruct (p s1) as [[o|e] s2]; reflexivity.
Qed.

Lemma count_starts_snoc (l : nat) (t : trace) :
  count_starts l (t ++ [Start l]) = S (count_starts l t).
Proof.
  unfold count_starts. rewrite filter_app, length_app. simpl.
  rewrite Nat.eqb_refl. simpl. lia.
Qed.

(** C5: [split c] runs [c] once and duplicates its single output, while
    [branch c c] runs [c] twice in a row.  With a leaf that increments a
    shared counter and returns it, [split] moves the counter by one and
    settles to [(n, n)], [branch] moves it by two and settles to
    [(n, n + 1)]. *)
Theorem split_runs_once_branch_twice :
  (forall I O (c : Computation I O) (x : I) (s : trace),
      eval (Computation.split c) x s =
      match eval c x s with
      | (Ok r, s1) => (Ok (r, r), s1)
      | (Err e, s1) => (Err e, s1)
      end) /\
  (forall I O (c : Computation I O) (x : I) (s : trace),
      eval (Computation.branch c c) x s =
      match eval c x s with
      | (Ok r1, s1) =>
          match eval c x s1 with
          | (Ok r2, s2) => (Ok (r1, r2), s2)
          | (Err e, s2) => (Err e, s2)
          end
      | (Err e, s1) => (Err e, s1)
      end) /\
  (forall (l : nat) (s : trace),
      let n := count_starts l s in
      eval (Computation.split (ticker l)) tt s = (Ok (n, n), s ++ [Start l]) /\
      count_starts l (s ++ [Start l]) = S n) /\
  (forall (l : nat) (s : trace),
      let n := count_starts l s in
      eval (Computation.branch (ticker l) (ticker l)) tt s =
        (Ok (n, S n), s ++ [Start l] ++ [Start l]) /\
      count_starts l (s ++ [Start l] ++ [Start l]) = S (S n)).
Proof.
  split; [|split; [|split]].
  - intros I O c x s. unfold_combinators.
    destruct (run c x s) as [p s1].
    destruct (p s1) as [[r|e] s2]; reflexivity.
  - intros I O c x s. unfold_combinators.
    destruct (run c x s) as [p s1].
    destruct (p s1) as [[r1|e] s2]; [|reflexivity].
    destruct (run c x s2) as [q s3].
    destruct (q s3) as [[r2|e] s4]; reflexivity.
  - intros l s n. split; [reflexivity|]. apply count_starts_snoc.
  - intros l s n. unfold_combinators. unfold ticker, make; simpl.
    rewrite count_starts_snoc. rewrite <- app_assoc. split; [reflexivity|].
    change [Start l; Start l] with ([Start l] ++ [Start l]).
    rewrite app_assoc, !count_starts_snoc. reflexivity.
Qed.

(** C6: [add] and [fanIn] run exactly the side named by the input's tag:
    the selected operand's settlement is passed on (re-tagged by [add],
    as is by [fanIn]) and its effects are the only ones; the other operand
    is never invoked. *)
Theorem add_fanIn_route_by_tag {I I2 O O2} (a : Computation I O)
        (b : Computation I2 O2) (b' : Computation I2 O) (s : trace) :
  (forall v : I,
      eval (Computation.add a b) (LEFT v) s =
      match eval a v s with
      | (Ok o, s1) => (Ok (LEFT o), s1)
      | (Err e, s1) => (Err e, s1)
      end) /\
  (forall v : I2,
      eval (Computation.add a b) (RIGHT v) s =
      match eval b v s with
      | (Ok o, s1) => (Ok (RIGHT o), s1)
      | (Err e, s1) => (Err e, s1)
      end) /\
  (forall v : I, eval (Computation.fanIn a b') (LEFT v) s = eval a v s) /\
  (forall v : I2, eval (Computation.fanIn a b') (RIGHT v) s = eval b' v s).
Proof.
  split; [|split; [|split]]; intros v; unfold_combinators.
  - destruct (run a v s) as [p s1]. destruct (p s1) as [[o|e] s2]; reflexivity.
  - destruct (run b v s) as [p s1]. destruct (p s1) as [[o|e] s2]; reflexivity.
  - reflexivity.
  - reflexivity.
Qed.

(** C7: for a combiner whose return values are plain data, [merge f]
    settles on [(x, y)] to [f x y] without touching the world; in
    particular [merge (+)] on [(2, 3)] settles to [5]. *)
Theorem merge_applies_combiner {I1 I2 O} `{Resolvable O}
        (Hplain : forall o : O, resolve_value o = Ok o)
        (f : I1 -> I2 -> O) (x : I1) (y : I2) (s : trace) :
  eval (Computation.merge f) (x, y) s = (Ok (f x y), s) /\
  eval (Computation.merge Z.add) (2%Z, 3%Z) s = (Ok 5%Z, s).
Proof.
  unfold_combinators. rewrite Hplain. split; reflexivity.
Qed.

(** C8: sequencing is associative, with the same settlement and the same
    effects for every input. *)
Theorem andThen_assoc {I O1 O2 O3} (a : Computation I O1)
        (b : Computation O1 O2) (c : Computation O2 O3) (x : I) (s : trace) :
  eval (Computation.andThen (Computation.andThen a b) c) x s =
  eval (Computation.andThen a (Computation.andThen b c)) x s.
Proof.
  rewrite !andThen_sequences.
  destruct (eval a x s) as [[o1|e] s1]; [|reflexivity].
  rewrite andThen_sequences. reflexivity.
Qed.

(** C9: [first c] runs [c] on the first component and returns the second
    component as it came in; [second c] symmetrically. *)
Theorem first_second_pass_through {I O D} (c : Computation I O) (s : trace) :
  (forall (x : I) (d : D),
      eval (Computation.first c) (x, d) s =
      match eval c x s with
      | (Ok o, s1) => (Ok (o, d), s1)
      | (Err e, s1) => (Err e, s1)
      end) /\
  (forall (d : D) (x : I),
      eval (Computation.second c) (d, x) s =
      match eval c x s with
      | (Ok o, s1) => (Ok (d, o), s1)
      | (Err e, s1) => (Err e, s1)
      end).
Proof.
  split; intros; unfold_combinators.
  - destruct (run c x s) as [p s1]. destruct (p s1) as [[o|e] s2]; reflexivity.
  - destruct (run c x s) as [p s1]. destruct (p s1) as [[o|e] s2]; reflexivity.
Qed.

(** [left]/[right] on a plain value of the untouched side settle to the
    same value, same tag, without invoking the computation. *)
Lemma left_right_plain_untouched {I O D} `{Resolvable D}
      (Hplain : forall d : D, resolve_value d = Ok d)
      (c : Computation I O) (d : D) (s : trace) :
  eval (Computation.left c) (RIGHT d) s = (Ok (RIGHT d), s) /\
  eval (Computation.right c) (LEFT d) s = (Ok (LEFT d), s).
Proof. unfold_combinators. rewrite Hplain. split; reflexivity. Qed.

(** C10 (defect of [left]/[right]): [await Promise.resolve(input.value)]
    adopts a promise carried on the untouched side: a fulfilled one comes
    out as its value instead of itself, a rejected one makes the whole
    computation reject, all without invoking the computation. *)
Lemma left_right_adopt_promise_values :
  eval (@Computation.left nat nat jsval _ inc_leaf)
       (RIGHT (JPromise (Ok (JNum 3)))) [] = (Ok (RIGHT (JNum 3)), []) /\
  eval (@Computation.left nat nat jsval _ inc_leaf)
       (RIGHT (JPromise (Err 7))) [] = (Err 7, []) /\
  eval (@Computation.right nat nat jsval _ inc_leaf)
       (LEFT (JPromise (Ok (JNum 3)))) [] = (Ok (LEFT (JNum 3)), []) /\
  eval (@Computation.right nat nat jsval _ inc_leaf)
       (LEFT (JPromise (Err 7))) [] = (Err 7, []).
Proof. repeat split; reflexivity. Qed.

(** ** Witnesses *)

Lemma branch_collects_both_in_order_witness :
  eval inc_leaf 5 [] = (Ok 6, [Start 1; Await 1]) /\
  eval dbl_leaf 5 [Start 1; Await 1] = (Ok 10, [Start 1; Await 1; Start 2; Await 2]) /\
  eval (Computation.branch inc_leaf dbl_leaf) 5 [] =
    (Ok (6, 10), [Start 1; Await 1; Start 2; Await 2]).
Proof.
  split; [reflexivity|]. split; [reflexivity|].
  apply (branch_collects_both_in_order inc_leaf dbl_leaf 5 [] [Start 1; Await 1]
      [Start 1; Await 1; Start 2; Await 2] 6 10);
    reflexivity.
Defined.

Lemma merge_applies_combiner_witness :
  (forall o : Z, resolve_value o = Ok o) /\
  eval (Computation.merge Z.mul) (4%Z, 5%Z) [] = (Ok 20%Z, []) /\
  eval (Computation.merge Z.add) (2%Z, 3%Z) [] = (Ok 5%Z, []).
Proof.
  split; [intros o; reflexivity|].
  apply (merge_applies_combiner (fun o => eq_refl) Z.mul 4%Z 5%Z []).
Defined.

(** * Further properties of [Computation] *)


(** [branch] on two leaves invokes and awaits the first, and only if it
    fulfils invokes and awaits the second. *)
Theorem branch_of_leaves {I O1 O2} (la lb : nat) (ga : I -> result O1)
        (gb : I -> result O2) (x : I) (s : trace) :
  eval (Computation.branch (probe la ga) (probe lb gb)) x s =
  match ga x with
  | Err e => (Err e, s ++ [Start la; Await la])
  | Ok a =>
      (match gb x with
       | Ok b => Ok (a, b)
       | Err e => Err e
       end, s ++ [Start la; Await la; Start lb; Await lb])
  end.
Proof.
  unfold_combinators. unfold probe, make, tell; simpl.
  destruct (ga x) as [a|e]; simpl; rewrite <- !app_assoc; [|reflexivity].
  destruct (gb x); reflexivity.
Qed.

(** When the first operand of [branch] rejects, [branch] rejects with the
    same error and the second operand is never invoked. *)
Theorem branch_rejection_skips_second {I O O2} (a : Computation I O)
        (b : Computation I O2) (x : I) (s s1 : trace) (e : error) :
  eval a x s = (Err e, s1) ->
  eval (Computation.branch a b) x s = (Err e, s1).
Proof.
  unfold_combinators. intros Ha.
  destruct (run a x s) as [p t1]. rewrite Ha. reflexivity.
Qed.

(** Mapping twice is mapping once with the composed mapper (a throw of the
    first mapper short-circuits the second), when the intermediate values
    are plain data. *)
Theorem mapOutput_compose {I O N P} `{Resolvable N} `{Resolvable P}
        (Hplain : forall n : N, resolve_value n = Ok n)
        (c : Computation I O) (f : O -> result N) (g : N -> result P) :
  same_behaviour (Computation.mapOutput (Computation.mapOutput c f) g)
                 (Computation.mapOutput c (fun o =>
                    match f o with Ok n => g n | Err e => Err e end)).
Proof.
  intros x s. unfold_combinators.
  destruct (run c x s) as [p s1]. split; [reflexivity|]. intros s'. simpl.
  destruct (p s') as [[o|e] s2]; [|reflexivity].
  destruct (f o) as [n|e]; [|reflexivity]. rewrite Hplain. reflexivity.
Qed.

(** Mapping the output of a sequence maps the output of its second stage;
    mapping the input of a sequence maps the input of its first stage. *)
Theorem map_andThen {I O O2 N M'} `{Resolvable N} (a : Computation I O)
        (b : Computation O O2) (f : O2 -> result N) (g : M' -> I) :
  same_behaviour (Computation.mapOutput (Computation.andThen a b) f)
                 (Computation.andThen a (Computation.mapOutput b f)) /\
  same_behaviour (Computation.mapInput (Computation.andThen a b) g)
                 (Computation.andThen (Computation.mapInput a g) b).
Proof.
  split; intros x s; unfold_combinators.
  - destruct (run a x s) as [p s1]. split; [reflexivity|]. intros s'. simpl.
    destruct (p s') as [[o|e] s2]; [|reflexivity]. simpl.
    destruct (run b o s2) as [q s3]. destruct (q s3) as [[o2|e] s4]; reflexivity.
  - destruct (run a (g x) s) as [p s1]. split; reflexivity.
Qed.

(** Right identity: following a computation with
    [new Computation(x => Promise.resolve(x))] changes nothing, when its
    outputs are plain data. *)
Theorem andThen_resolve_right_identity {I O} `{Resolvable O}
        (Hplain : forall o : O, resolve_value o = Ok o) (c : Computation I O) :
  same_behaviour (Computation.andThen c resolve_computation) c.
Proof.
  intros x s. unfold resolve_computation, make. unfold_combinators.
  destruct (run c x s) as [p s1]. split; [reflexivity|]. intros s'. simpl.
  destruct (p s') as [[o|e] s2]; [|reflexivity]. rewrite Hplain. reflexivity.
Qed.

(** Left identity: prefixing [new Computation(x => Promise.resolve(x))]
    gives the same settlement and effects, when inputs are plain data
    (the computation is then invoked when the first stage has settled). *)
Theorem andThen_resolve_left_identity {I O} `{Resolvable I}
        (Hplain : forall i : I, resolve_value i = Ok i) (c : Computation I O)
        (x : I) (s : trace) :
  eval (Computation.andThen resolve_computation c) x s = eval c x s.
Proof.
  unfold resolve_computation, make. unfold_combinators.
  rewrite Hplain. reflexivity.
Qed.

(** [add] keeps the tag: a fulfilled output is LEFT exactly when the input
    was LEFT. *)
Theorem add_preserves_tag {I I2 O O2} (a : Computation I O)
        (b : Computation I2 O2) (input : Either I I2) (s s' : trace)
        (out : Either O O2) :
  eval (Computation.add a b) input s = (Ok out, s') ->
  is_left out = is_left input.
Proof.
  destruct input as [v|v]; unfold_combinators.
  - destruct (run a v s) as [p s1]. destruct (p s1) as [[o|e] s2];
      intros Heq; inversion Heq; reflexivity.
  - destruct (run b v s) as [p s1]. destruct (p s1) as [[o|e] s2];
      intros Heq; inversion Heq; reflexivity.
Qed.

(** [fanIn a b] is [add a b] with the tag of the output dropped, when the
    outputs are plain data. *)
Theorem fanIn_is_untagged_add {I I2 O} `{Resolvable O}
        (Hplain : forall o : O, resolve_value o = Ok o)
        (a : Computation I O) (b : Computation I2 O) :
  same_behaviour (Computation.fanIn a b)
                 (Computation.mapOutput (Computation.add a b) untag).
Proof.
  intros [v|v] s; unfold_combinators.
  - destruct (run a v s) as [p s1]. split; [reflexivity|]. intros s'. simpl.
    destruct (p s') as [[o|e] s2]; simpl; [rewrite Hplain|]; reflexivity.
  - destruct (run b v s) as [p s1]. split; [reflexivity|]. intros s'. simpl.
    destruct (p s') as [[o|e] s2]; simpl; [rewrite Hplain|]; reflexivity.
Qed.

(** [left c] is [add] of [c] with [new Computation(x => Promise.resolve(x))]
    on the other side, and [right c] symmetrically. *)
Theorem left_right_are_add_with_resolve {I O D} `{Resolvable D}
        (c : Computation I O) :
  same_behaviour (Computation.left (D := D) c)
                 (Computation.add c resolve_computation) /\
  same_behaviour (Computation.right (D := D) c)
                 (Computation.add resolve_computation c).
Proof.
  unfold resolve_computation, make.
  split; intros [v|v] s; unfold_combinators;
    try (split; reflexivity);
    (destruct (run c v s) as [p s1]; split; [reflexivity|]; intros s'; reflexivity).
Qed.


(** [second c] is [first c] conjugated by swapping the tuple components. *)
Theorem second_is_swapped_first {I O D} (c : Computation I O) :
  same_behaviour (Computation.second (D := D) c)
                 (Computation.mapInput
                    (Computation.mapOutput (Computation.first c)
                       (fun p => Ok (swap p)))
                    swap).
Proof.
  intros [d x] s. unfold swap. unfold_combinators.
  destruct (run c x s) as [p s1]. split; [reflexivity|]. intros s'. simpl.
  destruct (p s') as [[o|e] s2]; reflexivity.
Qed.

(** [split] followed by [merge f] is mapping with [r => f(r, r)]. *)
Theorem split_then_merge {I O P} `{Resolvable P} (c : Computation I O)
        (f : O -> O -> P) :
  same_behaviour (Computation.andThen (Computation.split c) (Computation.merge f))
                 (Computation.mapOutput c (fun r => Ok (f r r))).
Proof.
  intros x s. unfold_combinators.
  destruct (run c x s) as [p s1]. split; [reflexivity|]. intros s'. simpl.
  destruct (p s') as [[o|e] s2]; reflexivity.
Qed.

(** The documented pipeline [a.branch(b)] then [merge(f)]: when [a] and then
    [b] fulfil, it settles to [f] of both outputs (adopted by
    [Promise.resolve]). *)
Theorem branch_then_merge {I O O2 P} `{Resolvable P} (a : Computation I O)
        (b : Computation I O2) (f : O -> O2 -> P) (x : I) (s s1 s2 : trace)
        (oa : O) (ob : O2) :
  eval a x s = (Ok oa, s1) ->
  eval b x s1 = (Ok ob, s2) ->
  eval (Computation.andThen (Computation.branch a b) (Computation.merge f)) x s =
    (resolve_value (f oa ob), s2).
Proof.
  unfold_combinators. intros Ha Hb.
  destruct (run a x s) as [p1 t1]. rewrite Ha. simpl.
  destruct (run b x s1) as [p2 t2]. rewrite Hb. reflexivity.
Qed.

Lemma branch_rejection_skips_second_witness :
  eval (probe 3 (fun _ : nat => @Err nat 9)) 5 [] = (Err 9, [Start 3; Await 3]) /\
  eval (Computation.branch (probe 3 (fun _ : nat => @Err nat 9)) dbl_leaf) 5 [] =
    (Err 9, [Start 3; Await 3]).
Proof.
  split; [reflexivity|].
  apply (branch_rejection_skips_second (probe 3 (fun _ : nat => @Err nat 9))
           dbl_leaf 5 [] [Start 3; Await 3] 9).
  reflexivity.
Defined.

Lemma mapOutput_compose_witness :
  (forall n : nat, resolve_value n = Ok n) /\
  same_behaviour
    (Computation.mapOutput (Computation.mapOutput inc_leaf (fun o => Ok (o * 3)))
       (fun n => if Nat.eqb n 0 then Err 1 else Ok n))
    (Computation.mapOutput inc_leaf (fun o =>
       match Ok (o * 3) with
       | Ok n => (fun n => if Nat.eqb n 0 then Err 1 else Ok n) n
       | Err e => Err e
       end)).
Proof.
  split; [intros n; reflexivity|].
  apply (mapOutput_compose (fun n => eq_refl)).
Defined.

Lemma andThen_resolve_right_identity_witness :
  (forall o : nat, resolve_value o = Ok o) /\
  same_behaviour (Computation.andThen inc_leaf resolve_computation) inc_leaf.
Proof.
  split; [intros o; reflexivity|].
  apply (andThen_resolve_right_identity (fun o => eq_refl)).
Defined.

Lemma andThen_resolve_left_identity_witness :
  (forall i : nat, resolve_value i = Ok i) /\
  eval (Computation.andThen resolve_computation inc_leaf) 5 [] = eval inc_leaf 5 [].
Proof.
  split; [intros i; reflexivity|].
  apply (andThen_resolve_left_identity (fun i => eq_refl)).
Defined.

Lemma add_preserves_tag_witness :
  eval (Computation.add inc_leaf dbl_leaf) (RIGHT 4) [] =
    (Ok (RIGHT 8), [Start 2; Await 2]) /\
  is_left (A := nat) (B := nat) (RIGHT 8) = is_left (A := nat) (B := nat) (RIGHT 4).
Proof.
  split; [reflexivity|].
  apply (add_preserves_tag inc_leaf dbl_leaf (RIGHT 4) [] [Start 2; Await 2]).
  reflexivity.
Defined.

Lemma fanIn_is_untagged_add_witness :
  (forall o : nat, resolve_value o = Ok o) /\
  same_behaviour (Computation.fanIn inc_leaf dbl_leaf)
                 (Computation.mapOutput (Computation.add inc_leaf dbl_leaf) untag).
Proof.
  split; [intros o; reflexivity|].
  apply (fanIn_is_untagged_add (fun o => eq_refl)).
Defined.

Lemma branch_then_merge_witness :
  eval inc_leaf 5 [] = (Ok 6, [Start 1; Await 1]) /\
  eval dbl_leaf 5 [Start 1; Await 1] = (Ok 10, [Start 1; Await 1; Start 2; Await 2]) /\
  eval (Computation.andThen (Computation.branch inc_leaf dbl_leaf)
          (Computation.merge Nat.add)) 5 [] =
    (Ok 16, [Start 1; Await 1; Start 2; Await 2]).
Proof.
  split; [reflexivity|]. split; [reflexivity|].
  apply (branch_then_merge inc_leaf dbl_leaf Nat.add 5 [] [Start 1; Await 1]
           [Start 1; Await 1; Start 2; Await 2] 6 10); reflexivity.
Defined.
